(** * hello_ops: the two route handlers of [app/main.py]

    The application is a FastAPI object with two decorated functions,
    [health] and [hello].  The handlers are embedded as computations in a
    state monad over an arbitrary ambient state [World], which neither of
    them reads or writes: each only builds and returns a value.  The
    part of the web framework that the handlers rely on (route lookup,
    binding of required query parameters, the validation-error response)
    is not part of this repository; it is modelled separately and marked
    as such. *)

From Stdlib Require Import String List Bool.
Import ListNotations.
Local Open Scope string_scope.

(** ** JSON values: what a handler returns and what a response carries *)

Module Json.

(** A Python [dict] literal keeps its insertion order, so an object is an
    association list. *)
#[warnings="-register-all"]
Inductive value : Type :=
| Null
| Str (s : string)
| Arr (items : list value)
| Obj (fields : list (string * value)).

Fixpoint assoc (k : string) (fields : list (string * value)) : option value :=
  match fields with
  | [] => None
  | (k', v) :: rest => if String.eqb k k' then Some v else assoc k rest
  end.

(** [body["k"]] *)
Definition get (k : string) (v : value) : option value :=
  match v with
  | Obj fields => assoc k fields
  | _ => None
  end.

(** [body[i]] *)
Definition item (i : nat) (v : value) : option value :=
  match v with
  | Arr items => nth_error items i
  | _ => None
  end.

End Json.

(** ** Requests and responses *)

Module Http.

Inductive method : Type := GET | HEAD | POST | PUT | DELETE | OPTIONS | PATCH.

Definition method_eqb (a b : method) : bool :=
  match a, b with
  | GET, GET | HEAD, HEAD | POST, POST | PUT, PUT
  | DELETE, DELETE | OPTIONS, OPTIONS | PATCH, PATCH => true
  | _, _ => false
  end.

(** The query string arrives parsed, as the list of its [key=value] pairs
    in the order they were written; a key may occur more than once. *)
Record request : Type := {
  req_method : method;
  req_path : string;
  req_query : list (string * string)
}.

Record response : Type := {
  status : nat;
  body : Json.value
}.

End Http.

(** Python's slice [s[n:]]. *)
Fixpoint drop (n : nat) (s : string) : string :=
  match n, s with
  | O, _ => s
  | S _, EmptyString => EmptyString
  | S n', String _ rest => drop n' rest
  end.

Module HelloOps.
Import Http.

(** [client.get("/hello", params=q)] and [client.get("/health", params=q)],
    the requests the tests send. *)
Definition get_hello (q : list (string * string)) : request :=
  {| req_method := GET; req_path := "/hello"; req_query := q |}.

Definition get_health (q : list (string * string)) : request :=
  {| req_method := GET; req_path := "/health"; req_query := q |}.

Section Application.

(** Everything a handler could read or write besides its arguments. *)
Variable World : Type.

(** *** State monad *)

Definition M (A : Type) : Type := World -> A * World.

Definition ret {A : Type} (a : A) : M A := fun w => (a, w).

Definition bind {A B : Type} (c : M A) (k : A -> M B) : M B :=
  fun w => let (a, w') := c w in k a w'.

(** *** The handlers, from [app/main.py] *)

(** [def health(): return {"status": "ok"}] *)
Definition health : M Json.value :=
  ret (Json.Obj [("status", Json.Str "ok")]).

(** [def hello(name: str): return {"message": f"hello {name}"}] *)
Definition hello (name : string) : M Json.value :=
  ret (Json.Obj [("message", Json.Str ("hello " ++ name))]).

(** *** Routes *)

(** The type of a handler taking the given [str] parameters, none of which
    has a default. *)
Fixpoint fn (params : list string) : Type :=
  match params with
  | [] => M Json.value
  | _ :: rest => string -> fn rest
  end.

Record route : Type := {
  route_method : method;
  route_path : string;
  route_params : list string;
  endpoint : fn route_params
}.

Record FastAPI : Type := {
  title : string;
  routes : list route
}.

(** [app = FastAPI(title="hello_ops")] followed by the two decorators
    [@app.get("/health")] and [@app.get("/hello")], in source order. *)
Definition app : FastAPI := {|
  title := "hello_ops";
  routes :=
    [ {| route_method := GET; route_path := "/health";
         route_params := []; endpoint := health |};
      {| route_method := GET; route_path := "/hello";
         route_params := ["name"]; endpoint := hello |} ]
|}.

(** The method/path pairs the application registers. *)
Definition route_table (a : FastAPI) : list (method * string) :=
  map (fun r => (route_method r, route_path r)) (routes a).

(** *** The framework's request handling

    FastAPI itself is a dependency, not code of this repository.  The three
    behaviours of it that the handlers rely on are modelled here. *)

(** Modelled from the spec: the framework's reading of a scalar query
    parameter (absent from the repository).  "Present" means that the key
    occurs in the query string, with any value, the empty one included: the
    values are validated for presence only.  For a key that occurs more than
    once the spec is silent; the last occurrence is bound here, as in the
    framework's multi-dict. *)
Fixpoint query_get (k : string) (q : list (string * string)) : option string :=
  match q with
  | [] => None
  | (k', v) :: rest =>
      match query_get k rest with
      | Some v' => Some v'
      | None => if String.eqb k k' then Some v else None
      end
  end.

(** Modelled from the spec: the detail entry of the framework's validation
    error for a required query parameter that is missing (absent from the
    repository).  The repository's test pins the ["msg"] field; ["loc"]
    names the missing field. *)
Definition missing_error (param : string) : Json.value :=
  Json.Obj [ ("type", Json.Str "missing");
             ("loc", Json.Arr [Json.Str "query"; Json.Str param]);
             ("msg", Json.Str "Field required");
             ("input", Json.Null) ].

Definition missing_errors (params : list string) (q : list (string * string))
  : list Json.value :=
  map missing_error
      (filter (fun p => match query_get p q with Some _ => false | None => true end)
              params).

(** Modelled from the spec: binding of the handler's parameters from the
    query string (absent from the repository).  Either every parameter is
    present and the handler is applied to the values, or the errors for all
    missing parameters are collected and the handler is not called. *)
Fixpoint bind_args (params : list string)
  : fn params -> list (string * string) -> list Json.value + M Json.value :=
  match params with
  | [] => fun f _ => inr f
  | p :: rest => fun f q =>
      match query_get p q with
      | Some v => bind_args rest (f v) q
      | None => inl (missing_error p :: missing_errors rest q)
      end
  end.

(** The first registered route with this method and path. *)
Fixpoint lookup (rs : list route) (m : method) (p : string) : option route :=
  match rs with
  | [] => None
  | r :: rest =>
      if method_eqb (route_method r) m && String.eqb (route_path r) p
      then Some r
      else lookup rest m p
  end.

(** Modelled from the spec: the framework's request cycle (absent from the
    repository).  A request that matches no registered route is left to the
    framework's default handling ([None]); a missing required parameter is
    answered with 422 and the list of errors under ["detail"]; otherwise
    the handler runs and its return value is the body of a 200 response. *)
Definition serve (a : FastAPI) (req : request) : M (option response) :=
  match lookup (routes a) (req_method req) (req_path req) with
  | None => ret None
  | Some r =>
      match bind_args (route_params r) (endpoint r) (req_query req) with
      | inl errs =>
          ret (Some {| status := 422;
                       body := Json.Obj [("detail", Json.Arr errs)] |})
      | inr call =>
          bind call (fun v => ret (Some {| status := 200; body := v |}))
      end
  end.

(** [resp.json()["detail"][0]["msg"]] *)
Definition first_detail_msg (r : response) : option Json.value :=
  match Json.get "detail" (body r) with
  | Some d =>
      match Json.item 0 d with
      | Some e => Json.get "msg" e
      | None => None
      end
  | None => None
  end.

(** ** Properties *)

(** *** What [serve] does on the two registered paths *)

Lemma serve_health_eq (req : request) (w : World) :
  req_method req = GET -> req_path req = "/health" ->
  serve app req w =
    (Some {| status := 200; body := Json.Obj [("status", Json.Str "ok")] |}, w).
Proof.
  intros Hm Hp. unfold serve. rewrite Hm, Hp. reflexivity.
Qed.

Lemma serve_hello_eq (req : request) (w : World) :
  req_method req = GET -> req_path req = "/hello" ->
  serve app req w =
    (match query_get "name" (req_query req) with
     | Some name =>
         Some {| status := 200;
                 body := Json.Obj [("message", Json.Str ("hello " ++ name))] |}
     | None =>
         Some {| status := 422;
                 body := Json.Obj [("detail", Json.Arr [missing_error "name"])] |}
     end, w).
Proof.
  intros Hm Hp. unfold serve. rewrite Hm, Hp. cbn.
  destruct (query_get "name" (req_query req)); reflexivity.
Qed.

Lemma method_eqb_GET (m : method) : method_eqb GET m = true <-> m = GET.
Proof. destruct m; cbn; split; congruence. Qed.

Lemma lookup_app_eq (m : method) (p : string) :
  lookup (routes app) m p =
    if method_eqb GET m && String.eqb "/health" p
    then Some {| route_method := GET; route_path := "/health";
                 route_params := []; endpoint := health |}
    else if method_eqb GET m && String.eqb "/hello" p
    then Some {| route_method := GET; route_path := "/hello";
                 route_params := ["name"]; endpoint := hello |}
    else None.
Proof. reflexivity. Qed.

Lemma lookup_app_none (m : method) (p : string) :
  (m, p) <> (GET, "/health") -> (m, p) <> (GET, "/hello") ->
  lookup (routes app) m p = None.
Proof.
  intros H1 H2. rewrite lookup_app_eq.
  destruct (method_eqb GET m) eqn:Em; [ | reflexivity ].
  apply method_eqb_GET in Em. subst m.
  destruct (String.eqb_spec "/health" p) as [<- | _]; [ congruence | ].
  destruct (String.eqb_spec "/hello" p) as [<- | _]; [ congruence | ].
  reflexivity.
Qed.

(** A parameter is bound exactly when its key occurs in the query string. *)
Lemma query_get_none_iff (k : string) (q : list (string * string)) :
  query_get k q = None <-> ~ In k (map fst q).
Proof.
  induction q as [ | [k' v] rest IH]; cbn.
  - tauto.
  - destruct (query_get k rest) as [v' | ].
    + split; [ discriminate | ].
      intros Hn. exfalso. apply Hn. right.
      destruct (in_dec string_dec k (map fst rest)) as [Hin | Hout]; [ exact Hin | ].
      apply IH in Hout. discriminate.
    + destruct (String.eqb_spec k k') as [-> | Hne].
      * split; [ discriminate | ]. intros Hn. exfalso. apply Hn. now left.
      * split; [ | reflexivity ]. intros _ [Heq | Hin]; [ congruence | ].
        now apply IH in Hin.
Qed.

(** *** The claims *)

(** C1. A [GET /hello] request that supplies a non-empty [name] is answered
    with status 200 and the body [{"message": "hello " + name}]: the message
    is the fixed prefix followed by the supplied value, as the handler built
    it.  For [name = "Ada"] the handler's value is
    [{"message": "hello Ada"}]. *)
Theorem hello_greets_name (req : request) (w : World) (name : string) :
  req_method req = GET -> req_path req = "/hello" ->
  query_get "name" (req_query req) = Some name ->
  name <> "" ->
  fst (serve app req w) =
    Some {| status := 200;
            body := Json.Obj [("message", Json.Str ("hello " ++ name))] |}
  /\ fst (hello name w) = Json.Obj [("message", Json.Str ("hello " ++ name))]
  /\ fst (hello "Ada" w) = Json.Obj [("message", Json.Str "hello Ada")].
Proof.
  intros Hm Hp Hq _. rewrite (serve_hello_eq req w Hm Hp), Hq.
  repeat split.
Qed.

(** C2. A [GET /hello] request whose query string has no [name] key is
    answered with status 422 and a body whose ["detail"] list starts with an
    entry whose ["msg"] is ["Field required"]. *)
Theorem hello_missing_name (req : request) (w : World) :
  req_method req = GET -> req_path req = "/hello" ->
  ~ In "name" (map fst (req_query req)) ->
  exists r : response,
    fst (serve app req w) = Some r
    /\ status r = 422
    /\ first_detail_msg r = Some (Json.Str "Field required").
Proof.
  intros Hm Hp Hq. apply query_get_none_iff in Hq.
  rewrite (serve_hello_eq req w Hm Hp), Hq.
  eexists. split; [ reflexivity | split; reflexivity ].
Qed.

(** C3. Every [GET /health] request, whatever its query string and whatever
    the state it is served in, is answered with status 200 and the body
    [{"status": "ok"}]. *)
Theorem health_ok (req : request) (w : World) :
  req_method req = GET -> req_path req = "/health" ->
  fst (serve app req w) =
    Some {| status := 200; body := Json.Obj [("status", Json.Str "ok")] |}.
Proof.
  intros Hm Hp. rewrite (serve_health_eq req w Hm Hp). reflexivity.
Qed.

(** C4. A [GET /hello] request always gets a response, whose status is 422
    exactly when the query string has no [name] key and 200 exactly when it
    has one; there is no third outcome. *)
Theorem hello_error_iff_missing (req : request) (w : World) :
  req_method req = GET -> req_path req = "/hello" ->
  exists r : response,
    fst (serve app req w) = Some r
    /\ (status r = 422 <-> ~ In "name" (map fst (req_query req)))
    /\ (status r = 200 <-> In "name" (map fst (req_query req)))
    /\ (status r = 200 \/ status r = 422).
Proof.
  intros Hm Hp. rewrite (serve_hello_eq req w Hm Hp).
  pose proof (query_get_none_iff "name" (req_query req)) as Hq.
  destruct (query_get "name" (req_query req)) as [name | ];
    eexists; (split; [ reflexivity | ]); cbn [status fst].
  - assert (Hin : In "name" (map fst (req_query req))).
    { destruct (in_dec string_dec "name" (map fst (req_query req))) as [H | H];
        [ exact H | ]. apply Hq in H. discriminate. }
    repeat split; try (now left); try (intros _; exact Hin).
    + discriminate.
    + intros Hn. contradiction.
  - assert (Hout : ~ In "name" (map fst (req_query req))) by now apply Hq.
    repeat split; try (now right); try (intros _; exact Hout).
    + discriminate.
    + intros Hin. contradiction.
Qed.

(** C6. A [GET /hello] request whose [name] is the empty string is accepted:
    status 200 and body [{"message": "hello "}]. *)
Theorem hello_empty_name (req : request) (w : World) :
  req_method req = GET -> req_path req = "/hello" ->
  query_get "name" (req_query req) = Some "" ->
  fst (serve app req w) =
    Some {| status := 200;
            body := Json.Obj [("message", Json.Str "hello ")] |}.
Proof.
  intros Hm Hp Hq. rewrite (serve_hello_eq req w Hm Hp), Hq. reflexivity.
Qed.

(** C8. The application registers exactly the two routes [GET /health] and
    [GET /hello]; for any other method/path pair no route is found and no
    handler of the application answers. *)
Theorem only_two_routes :
  route_table app = [(GET, "/health"); (GET, "/hello")]
  /\ (forall (m : method) (p : string),
        (m, p) <> (GET, "/health") -> (m, p) <> (GET, "/hello") ->
        lookup (routes app) m p = None)
  /\ (forall (req : request) (w : World),
        (req_method req, req_path req) <> (GET, "/health") ->
        (req_method req, req_path req) <> (GET, "/hello") ->
        fst (serve app req w) = None).
Proof.
  split; [ reflexivity | split ].
  - apply lookup_app_none.
  - intros req w H1 H2. unfold serve.
    rewrite (lookup_app_none _ _ H1 H2). reflexivity.
Qed.

(** C9. The message returned for [name] is ["hello "] followed by [name]
    unchanged: dropping its first 6 characters gives [name] back, its length
    is 6 more than that of [name], and two names with the same returned
    value are equal. *)
Theorem hello_message_roundtrip :
  (forall (name : string) (w : World),
      exists m : string,
        Json.get "message" (fst (hello name w)) = Some (Json.Str m)
        /\ m = "hello " ++ name
        /\ drop 6 m = name
        /\ String.length m = 6 + String.length name)
  /\ (forall (n1 n2 : string) (w1 w2 : World),
        fst (hello n1 w1) = fst (hello n2 w2) -> n1 = n2).
Proof.
  split.
  - intros name w. exists ("hello " ++ name). repeat split.
  - intros n1 n2 w1 w2 H. cbn in H. injection H as H. exact H.
Qed.

(** *** Further properties of the greeting endpoint *)

(** X1. Two [GET /hello] requests get the same response exactly when they
    bind the same [name] (or both bind none): nothing else in the query
    string reaches the response, and the response tells the names apart. *)
Theorem hello_response_iff_same_name (req1 req2 : request) (w1 w2 : World) :
  req_method req1 = GET -> req_path req1 = "/hello" ->
  req_method req2 = GET -> req_path req2 = "/hello" ->
  fst (serve app req1 w1) = fst (serve app req2 w2)
  <-> query_get "name" (req_query req1) = query_get "name" (req_query req2).
Proof.
  intros Hm1 Hp1 Hm2 Hp2.
  rewrite (serve_hello_eq req1 w1 Hm1 Hp1), (serve_hello_eq req2 w2 Hm2 Hp2).
  cbn [fst].
  destruct (query_get "name" (req_query req1)) as [n1 | ];
    destruct (query_get "name" (req_query req2)) as [n2 | ];
    split; intros H; try discriminate H; try reflexivity.
  - cbn in H. injection H as H. now subst n2.
  - injection H as H. now subst n2.
Qed.

(** X2. No [GET /hello] request, whatever its query string, is answered
    like a [GET /health] request: neither a greeting for any name nor the
    validation error equals the health response. *)
Theorem hello_never_answers_as_health (reqh reqg : request) (w1 w2 : World) :
  req_method reqh = GET -> req_path reqh = "/health" ->
  req_method reqg = GET -> req_path reqg = "/hello" ->
  fst (serve app reqh w1) <> fst (serve app reqg w2).
Proof.
  intros Hmh Hph Hmg Hpg.
  rewrite (serve_health_eq reqh w1 Hmh Hph), (serve_hello_eq reqg w2 Hmg Hpg).
  cbn [fst].
  destruct (query_get "name" (req_query reqg)); intros H; discriminate H.
Qed.

End Application.

(** ** Concrete runs

    The ambient state is instantiated with a counter. *)

Lemma hello_greets_name_witness :
  fst (serve nat (app nat) (get_hello [("name", "Ada")]) 0) =
    Some {| status := 200;
            body := Json.Obj [("message", Json.Str "hello Ada")] |}.
Proof.
  apply (hello_greets_name nat (get_hello [("name", "Ada")]) 0 "Ada");
    [ reflexivity | reflexivity | reflexivity | discriminate ].
Defined.

Lemma hello_missing_name_witness :
  exists r : response,
    fst (serve nat (app nat) (get_hello [("nom", "Ada")]) 0) = Some r
    /\ status r = 422
    /\ first_detail_msg r = Some (Json.Str "Field required").
Proof.
  apply (hello_missing_name nat (get_hello [("nom", "Ada")]) 0);
    [ reflexivity | reflexivity | ].
  cbn. intros [H | []]. discriminate H.
Defined.

Lemma health_ok_witness :
  fst (serve nat (app nat) (get_health [("name", "Ada")]) 3) =
    Some {| status := 200; body := Json.Obj [("status", Json.Str "ok")] |}.
Proof.
  apply (health_ok nat (get_health [("name", "Ada")]) 3); reflexivity.
Defined.

Lemma hello_error_iff_missing_witness :
  exists r : response,
    fst (serve nat (app nat) (get_hello []) 0) = Some r
    /\ (status r = 422 <-> ~ In "name" (map fst (@nil (string * string))))
    /\ (status r = 200 <-> In "name" (map fst (@nil (string * string))))
    /\ (status r = 200 \/ status r = 422).
Proof.
  apply (hello_error_iff_missing nat (get_hello []) 0); reflexivity.
Defined.

Lemma hello_empty_name_witness :
  fst (serve nat (app nat) (get_hello [("name", "")]) 0) =
    Some {| status := 200;
            body := Json.Obj [("message", Json.Str "hello ")] |}.
Proof.
  apply (hello_empty_name nat (get_hello [("name", "")]) 0); reflexivity.
Defined.

Lemma only_two_routes_witness :
  lookup nat (routes nat (app nat)) POST "/hello" = None
  /\ fst (serve nat (app nat)
            {| req_method := GET; req_path := "/"; req_query := [] |} 0) = None.
Proof.
  destruct (only_two_routes nat) as [_ [Hl Hs]]. split.
  - apply (Hl POST "/hello"); discriminate.
  - apply (Hs {| req_method := GET; req_path := "/"; req_query := [] |} 0);
      discriminate.
Defined.

Lemma hello_message_roundtrip_witness : "Ada" = "Ada".
Proof.
  exact (proj2 (hello_message_roundtrip nat) "Ada" "Ada" 0 1 eq_refl).
Defined.

Lemma hello_response_iff_same_name_witness :
  fst (serve nat (app nat) (get_hello [("name", "Ada"); ("lang", "en")]) 0) =
  fst (serve nat (app nat) (get_hello [("name", "Bob"); ("name", "Ada")]) 5)
  <-> Some "Ada" = Some "Ada".
Proof.
  apply (hello_response_iff_same_name nat
           (get_hello [("name", "Ada"); ("lang", "en")])
           (get_hello [("name", "Bob"); ("name", "Ada")]) 0 5); reflexivity.
Defined.

Lemma hello_never_answers_as_health_witness :
  fst (serve nat (app nat) (get_health []) 0) <>
  fst (serve nat (app nat) (get_hello [("name", "ok")]) 0).
Proof.
  apply (hello_never_answers_as_health nat
           (get_health []) (get_hello [("name", "ok")]) 0 0); reflexivity.
Defined.

End HelloOps.
